(** * sandman.model: the [Model] mixin, embedded and verified

    A shallow embedding of [src/sandman/model.py].  The mixin reads a table
    descriptor ([__table__], owned by the ORM) and the attributes of one
    instance; it builds endpoint names, URIs and link lists, projects the
    instance to a dictionary and assigns attributes from a dictionary.

    Modelling choices:
    - Python strings are [string]; [Str.lower] lower-cases the ASCII
      letters, which is [str.lower] on ASCII text.
    - Attribute and dictionary values are the scalar Python values [value]
      ([None], [bool], [int], [str], finite [Decimal]); none is callable.
    - An instance is the finite map of its own attributes ([__dict__]).
      [setattr] inserts into it.  [getattr] with a default looks a name up
      in it; a name the class binds as well ([class_level]) would be found
      on the class when the instance lacks it, and properties that read
      such a name unset say so in a hypothesis.
    - A call [self.m(...)] looks [m] up on the instance first: an
      attribute of that name hides the method, and calling the value
      raises [TypeError] ([method]).
    - [cls.__table__] is a record with the fields the code reads.
    - An exception is the [Raise] branch of [result]. *)

From Stdlib Require Import ZArith Ascii String DecimalString DecimalPos DecimalZ.
From stdpp Require Import gmap strings list fin_maps.

Local Open Scope string_scope.
Local Open Scope list_scope.

(** ** Python strings *)

Module Str.

(** [c.lower()] for one byte: 'A'..'Z' move to 'a'..'z'. *)
Definition lower_ascii (c : ascii) : ascii :=
  let n := Ascii.nat_of_ascii c in
  if (65 <=? n)%nat && (n <=? 90)%nat then Ascii.ascii_of_nat (n + 32) else c.

(** [s.lower()] on ASCII text: the letters 'A'..'Z' are the only ones
    changed, and the length is kept. *)
Fixpoint lower (s : string) : string :=
  match s with
  | EmptyString => EmptyString
  | String c rest => String (lower_ascii c) (lower rest)
  end.

(** [s.endswith(suffix)]: the slice [s[len(s)-len(suffix):]] is compared
    with [suffix]; a suffix longer than [s] never matches. *)
Definition endswith (s suffix : string) : bool :=
  let n := String.length s in
  let k := String.length suffix in
  (k <=? n)%nat && String.eqb (substring (n - k) k s) suffix.

(** [str(n)] for an [int]. *)
Definition of_Z (z : Z) : string := NilZero.string_of_int (Z.to_int z).

(** ["%+d" % n]: the sign is always written. *)
Definition of_Z_signed (z : Z) : string :=
  if (0 <=? z)%Z then "+" +:+ of_Z z else of_Z z.

(** [c * n] for a one-character string [c]. *)
Fixpoint repeat (c : ascii) (n : nat) : string :=
  match n with
  | O => EmptyString
  | S m => String c (repeat c m)
  end.

End Str.

(** ** Python values *)

(** A finite [decimal.Decimal]: sign, coefficient and exponent
    ([_sign], [_int], [_exp]). *)
Record PyDecimal := mkDecimal {
  dec_sign : bool;
  dec_int : N;
  dec_exp : Z
}.

(** [Decimal.__str__] (scientific notation of the decimal module, context
    with [capitals = 1]). *)
Definition Decimal_str (d : PyDecimal) : string :=
  let sign := if dec_sign d then "-" else "" in
  let digits := NilZero.string_of_uint (N.to_uint (dec_int d)) in
  let len := Z.of_nat (String.length digits) in
  let leftdigits := (dec_exp d + len)%Z in
  let dotplace :=
    if (dec_exp d <=? 0)%Z && (-6 <? leftdigits)%Z then leftdigits else 1%Z in
  let intpart :=
    if (dotplace <=? 0)%Z then "0"
    else if (len <=? dotplace)%Z
         then digits +:+ Str.repeat "0"%char (Z.to_nat (dotplace - len))
         else substring 0 (Z.to_nat dotplace) digits in
  let fracpart :=
    if (dotplace <=? 0)%Z
    then "." +:+ Str.repeat "0"%char (Z.to_nat (- dotplace)) +:+ digits
    else if (len <=? dotplace)%Z then ""
         else "." +:+ substring (Z.to_nat dotplace)
                                 (String.length digits - Z.to_nat dotplace) digits in
  let exp :=
    if (leftdigits =? dotplace)%Z then ""
    else "E" +:+ Str.of_Z_signed (leftdigits - dotplace) in
  sign +:+ intpart +:+ fracpart +:+ exp.

Inductive value :=
  | VNone
  | VBool (b : bool)
  | VInt (z : Z)
  | VStr (s : string)
  | VDecimal (d : PyDecimal).

(** [bool(v)], the test of [if v:]. *)
Definition truthy (v : value) : bool :=
  match v with
  | VNone => false
  | VBool b => b
  | VInt z => negb (z =? 0)%Z
  | VStr s => negb (String.eqb s "")
  | VDecimal d => negb (dec_int d =? 0)%N
  end.

(** [str(v)]; it is also what a bare [{}] field of [str.format] writes. *)
Definition str (v : value) : string :=
  match v with
  | VNone => "None"
  | VBool true => "True"
  | VBool false => "False"
  | VInt z => Str.of_Z z
  | VStr s => s
  | VDecimal d => Decimal_str d
  end.

(** [isinstance(v, Decimal)]. *)
Definition is_Decimal (v : value) : bool :=
  match v with
  | VDecimal _ => true
  | _ => false
  end.

(** ['/{}/{}'.format(a, b)]. *)
Definition format_uri (a b : value) : string :=
  "/" +:+ str a +:+ "/" +:+ str b.

(** ** Exceptions *)

Inductive exn := IndexError | TypeError.

Inductive result (A : Type) :=
  | Ok (a : A)
  | Raise (e : exn).
Arguments Ok {A} a.
Arguments Raise {A} e.

(** Sequencing: the first exception raised ends the computation. *)
#[global] Instance result_bind : MBind result := fun A B k r =>
  match r with
  | Ok a => k a
  | Raise e => Raise e
  end.

(** ** The table descriptor and the instance *)

(** A column as the mixin sees it: [column.name] and [column.table.name]. *)
Record Column := mkColumn {
  column_name : string;
  column_table : string
}.

(** A foreign key: [parent] is the constrained column of this table,
    [column] the column it references in the other table. *)
Record ForeignKey := mkForeignKey {
  fk_parent : Column;
  fk_column : Column
}.

(** [cls.__table__]: [name], [columns] in declaration order,
    [primary_key.columns] in order, [foreign_keys] in iteration order. *)
Record Table := mkTable {
  table_name : string;
  columns : list Column;
  primary_key_columns : list Column;
  foreign_keys : list ForeignKey
}.

(** [__table__.columns.keys()]. *)
Definition keys (cols : list Column) : list string := map column_name cols.

(** [getattr(self, name, default)] and [setattr(self, name, v)]. *)
Definition getattr (self : gmap string value) (name : string) (dflt : value) : value :=
  default dflt (self !! name).

Definition setattr (self : gmap string value) (name : string) (v : value)
  : gmap string value :=
  <[name := v]> self.

(** [dictionary.get(key, default)]. *)
Definition dict_get (dictionary : gmap string value) (key : string) (dflt : value) : value :=
  default dflt (dictionary !! key).

(** A link, the dictionary [{'rel': ..., 'uri': ...}]. *)
Record Link := mkLink {
  rel : string;
  uri : string
}.

(** ** The methods of [Model] *)

Definition endpoint (tbl : Table) : string :=
  let endpoint := Str.lower (table_name tbl) in
  if negb (Str.endswith endpoint "s") then endpoint +:+ "s" else endpoint.

(** [columns.values()[0].name]: indexing the empty list raises. *)
Definition primary_key (tbl : Table) : result string :=
  match primary_key_columns tbl with
  | [] => Raise IndexError
  | c :: _ => Ok (column_name c)
  end.

(** [self.name(...)] for a method [name] of the class, [call] being the
    method's body: an attribute [name] of the instance is found before the
    method, and calling it raises [TypeError]. *)
Definition method {A : Type} (self : gmap string value) (name : string)
    (call : result A) : result A :=
  match self !! name with
  | Some _ => Raise TypeError
  | None => call
  end.

Definition resource_uri (tbl : Table) (self : gmap string value) : result string :=
  pk ← method self "primary_key" (primary_key tbl);
  let primary_key_value := getattr self pk VNone in
  e ← method self "endpoint" (Ok (endpoint tbl));
  Ok (format_uri (VStr e) primary_key_value).

(** One turn of the loop over [foreign_keys] in [links]. *)
Definition links_step (self : gmap string value) (links : list Link) (foreign_key : ForeignKey)
  : list Link :=
  let column := column_name (fk_column foreign_key) in
  let column_value := getattr self column VNone in
  if truthy column_value then
    let table := column_table (fk_column foreign_key) in
    links ++ [ {| rel := "related"; uri := format_uri (VStr table) column_value |} ]
  else links.

Definition links (tbl : Table) (self : gmap string value) : result (list Link) :=
  let links := foldl (links_step self) [] (foreign_keys tbl) in
  u ← method self "resource_uri" (resource_uri tbl self);
  Ok (links ++ [ {| rel := "self"; uri := u |} ]).

(** What a representation dictionary holds: a column value, or the list
    of links stored under ['_links']. *)
Inductive object :=
  | Scalar (v : value)
  | LinkList (l : list Link).

(** The loop of [as_dict] over [result_dict]: a [Decimal] is replaced by
    its string. *)
Definition stringify_Decimal (o : object) : object :=
  match o with
  | Scalar v => if is_Decimal v then Scalar (VStr (str v)) else o
  | LinkList _ => o
  end.

Definition as_dict (tbl : Table) (self : gmap string value) : result (gmap string object) :=
  let result_dict : gmap string object :=
    foldl (fun d column => <[column := Scalar (getattr self column VNone)]> d)
          ∅ (keys (columns tbl)) in
  let result_dict := stringify_Decimal <$> result_dict in
  l ← method self "links" (links tbl self);
  Ok (<["_links" := LinkList l]> result_dict).

(** One turn of the loop of [from_dict]. *)
Definition from_dict_step (dictionary self : gmap string value) (column : string)
  : gmap string value :=
  let value := dict_get dictionary column VNone in
  if truthy value then setattr self column value else self.

Definition from_dict (tbl : Table) (dictionary self : gmap string value)
  : gmap string value :=
  foldl (from_dict_step dictionary) self (keys (columns tbl)).

(** [replace]: the instance as the call leaves it.  When [self.from_dict]
    finds an attribute, [from_dict] does not run and the instance stays as
    the first loop left it. *)
Definition replace (tbl : Table) (dictionary self : gmap string value)
  : gmap string value :=
  let self := foldl (fun self column => setattr self column VNone) self
                    (keys (columns tbl)) in
  match self !! "from_dict" with
  | Some _ => self
  | None => from_dict tbl dictionary self
  end.


(** ** Notions used to state the properties *)

(** "The string [t] ends in s." *)
Definition ends_in_s (t : string) : Prop := exists p, t = p +:+ "s".

(** The link one foreign key contributes: the attribute read is the one
    named like the column the key references. *)
Definition related_link (self : gmap string value) (foreign_key : ForeignKey)
  : option Link :=
  let column_value := getattr self (column_name (fk_column foreign_key)) VNone in
  if truthy column_value
  then Some {| rel := "related";
               uri := "/" +:+ column_table (fk_column foreign_key)
                          +:+ "/" +:+ str column_value |}
  else None.

(** "Key [c] is absent from [d], or its value is falsy." *)
Definition absent_or_falsy (d : gmap string value) (c : string) : Prop :=
  d !! c = None \/ exists v, d !! c = Some v /\ truthy v = false.

(** The columns that are not the constrained column of a foreign key. *)
Definition non_foreign_keys (tbl : Table) : list string :=
  filter (fun c => c ∉ map (fun fk => column_name (fk_parent fk)) (foreign_keys tbl))
         (keys (columns tbl)).

(** ** Examples: the table [book] with foreign key [author_id -> author.id] *)

Definition book : Table :=
  let id := mkColumn "id" "book" in
  let title := mkColumn "title" "book" in
  let author_id := mkColumn "author_id" "book" in
  {| table_name := "book";
     columns := [id; title; author_id];
     primary_key_columns := [id];
     foreign_keys := [ mkForeignKey author_id (mkColumn "id" "author") ] |}.

Definition dune : gmap string value :=
  <["id" := VInt 5]> (<["title" := VStr "Dune"]> (<["author_id" := VInt 3]> ∅)).

(** A table whose name already ends in "s" once lower-cased. *)
Definition address : Table :=
  {| table_name := "AddresS";
     columns := [mkColumn "street" "AddresS"];
     primary_key_columns := [];
     foreign_keys := [] |}.

Definition dune_fields : gmap string value :=
  <["id" := VInt 5]> (<["title" := VStr "Dune"]> ∅).

Definition zero_title : gmap string value :=
  <["title" := VStr ""]> (<["id" := VInt 0]> ∅).

(** A table with a column that is itself named [_links]. *)
Definition node : Table :=
  {| table_name := "node";
     columns := [mkColumn "id" "node"; mkColumn "_links" "node"];
     primary_key_columns := [mkColumn "id" "node"];
     foreign_keys := [] |}.

(** A table with a [Decimal] column, and a row with no [name]. *)
Definition product : Table :=
  {| table_name := "Product";
     columns := [mkColumn "id" "Product"; mkColumn "price" "Product";
                 mkColumn "name" "Product"];
     primary_key_columns := [mkColumn "id" "Product"];
     foreign_keys := [] |}.

Definition widget : gmap string value :=
  <["id" := VInt 7]> (<["price" := VDecimal (mkDecimal false 1250 (-2))]> ∅).

(** ** [meta] and further notions *)

(** [meta()].  [type_str column] is [str(column.type)], the name the ORM
    gives the column's type; [cls_name] is [cls.__name__]. *)
Definition meta (type_str : Column -> string) (cls_name : string) (tbl : Table)
  : gmap string (gmap string string) :=
  let attribute_info :=
    foldl (fun info column => <[column_name column := Str.lower (type_str column)]> info)
          ∅ (columns tbl) in
  {[ cls_name := attribute_info ]}.

(** The names the body of class [Model] binds: its class attributes and
    its methods. *)
Definition Model_names : list string :=
  [ "__endpoint__"; "__tablename__"; "__top_level_json_name__"; "__methods__";
    "__table__"; "__from_class__";
    "endpoint"; "resource_uri"; "primary_key"; "links"; "as_dict"; "from_dict";
    "replace"; "meta" ].

(** Names that are found on the class when the instance lacks them: those
    of [Model_names], and the double-underscore names every object has. *)
Definition class_level (name : string) : bool :=
  bool_decide (name ∈ Model_names) || String.prefix "__" name.

(** "The instance has no attribute of its own under any of [names]." *)
Definition unshadowed (self : gmap string value) (names : list string) : Prop :=
  Forall (fun name => self !! name = None) names.


(** "[self.from_dict] finds an attribute once [replace] has reset the
    columns": a declared column, or an attribute of the instance, is named
    [from_dict]. *)
Definition from_dict_hidden (tbl : Table) (self : gmap string value) : bool :=
  bool_decide ("from_dict" ∈ keys (columns tbl))
  || bool_decide (is_Some (self !! "from_dict")).


(** "The string [t] is ASCII text." *)
Definition is_ascii (t : string) : Prop :=
  Forall (fun c => nat_of_ascii c < 128) (list_ascii_of_string t).



(** "The string [t] has no upper-case letter": lower-casing leaves it as
    it is. *)
Definition lowercase (t : string) : Prop := Str.lower t = t.


(** The foreign keys for which [links] finds a truthy attribute. *)
Definition linked_keys (tbl : Table) (self : gmap string value) : list ForeignKey :=
  filter (fun fk => truthy (getattr self (column_name (fk_column fk)) VNone) = true)
         (foreign_keys tbl).


(** A table whose foreign keys are named like the columns they reference. *)
Definition track : Table :=
  let track_id := mkColumn "TrackId" "Track" in
  let name := mkColumn "Name" "Track" in
  let album_id := mkColumn "AlbumId" "Track" in
  let genre_id := mkColumn "GenreId" "Track" in
  {| table_name := "Track";
     columns := [track_id; name; album_id; genre_id];
     primary_key_columns := [track_id];
     foreign_keys := [ mkForeignKey album_id (mkColumn "AlbumId" "Album");
                       mkForeignKey genre_id (mkColumn "GenreId" "Genre") ] |}.

Definition thunderstruck : gmap string value :=
  <["TrackId" := VInt 15]> (<["Name" := VStr "Thunderstruck"]>
    (<["AlbumId" := VInt 4]> (<["GenreId" := VInt 0]> ∅))).

(** The type names of [track]'s columns, as the ORM prints them. *)
Definition track_types (c : Column) : string :=
  if String.eqb (column_name c) "Name" then "VARCHAR(200)" else "INTEGER".

(** A table that is already named like an endpoint. *)
Definition books : Table :=
  {| table_name := "books";
     columns := [mkColumn "id" "books"];
     primary_key_columns := [mkColumn "id" "books"];
     foreign_keys := [] |}.


(** * Properties *)

(** ** Strings *)

Section strings.

Lemma length_app (p q : string) :
  String.length (p +:+ q) = String.length p + String.length q.
Proof. induction p as [|c p IH]; simpl; [reflexivity | now rewrite IH]. Qed.

Lemma substring_all (s : string) : substring 0 (String.length s) s = s.
Proof. induction s as [|c s IH]; simpl; [reflexivity | now rewrite IH]. Qed.

Lemma substring_skip (p q : string) :
  substring (String.length p) (String.length q) (p +:+ q) = q.
Proof. induction p as [|c p IH]; simpl; [apply substring_all | exact IH]. Qed.

(** Cutting [s] at position [i] loses nothing. *)
Lemma substring_split (s : string) (i : nat) :
  i <= String.length s ->
  s = substring 0 i s +:+ substring i (String.length s - i) s.
Proof.
  revert i. induction s as [|c s IH]; intros [|i] Hi.
  - reflexivity.
  - simpl in Hi. lia.
  - simpl. now rewrite substring_all.
  - simpl in Hi. assert (Hi' : i <= String.length s) by lia.
    specialize (IH i Hi').
    change (String c s
            = String c (substring 0 i s +:+ substring i (String.length s - i) s)).
    f_equal. exact IH.
Qed.

(** [endswith] decides "has this suffix". *)
Lemma endswith_spec (s suffix : string) :
  Str.endswith s suffix = true <-> exists p, s = p +:+ suffix.
Proof.
  unfold Str.endswith. rewrite andb_true_iff, Nat.leb_le, String.eqb_eq. split.
  - intros [Hle Hsub].
    exists (substring 0 (String.length s - String.length suffix) s).
    pose proof (substring_split s (String.length s - String.length suffix)) as Hs.
    replace (String.length s - (String.length s - String.length suffix))
      with (String.length suffix) in Hs by lia.
    rewrite Hsub in Hs. apply Hs. lia.
  - intros [p ->]. rewrite length_app. split; [lia|].
    replace (String.length p + String.length suffix - String.length suffix)
      with (String.length p) by lia.
    apply substring_skip.
Qed.

Lemma lower_length (s : string) : String.length (Str.lower s) = String.length s.
Proof. induction s as [|c s IH]; simpl; [reflexivity | now rewrite IH]. Qed.

End strings.

(** ** [endpoint] *)

(** C2: [endpoint()] is the lower-cased table name, with "s" appended
    exactly when the lower-cased name does not already end in "s". *)
Theorem endpoint_spec (tbl : Table) :
  (ends_in_s (Str.lower (table_name tbl)) ->
     endpoint tbl = Str.lower (table_name tbl)) /\
  (~ ends_in_s (Str.lower (table_name tbl)) ->
     endpoint tbl = Str.lower (table_name tbl) +:+ "s").
Proof.
  unfold endpoint, ends_in_s.
  destruct (Str.endswith (Str.lower (table_name tbl)) "s") eqn:E; simpl; split; intros H.
  - reflexivity.
  - exfalso. apply H. now apply endswith_spec.
  - apply endswith_spec in H. congruence.
  - reflexivity.
Qed.

Lemma endpoint_spec_witness :
  endpoint address = "address" /\ endpoint book = "books".
Proof.
  split.
  - apply (proj1 (endpoint_spec address)). exists "addres". reflexivity.
  - apply (proj2 (endpoint_spec book)). intros H.
    apply endswith_spec in H. vm_compute in H. discriminate H.
Defined.

(** The endpoint always ends in "s". *)
Lemma endpoint_ends_in_s (tbl : Table) : ends_in_s (endpoint tbl).
Proof.
  unfold endpoint.
  destruct (Str.endswith (Str.lower (table_name tbl)) "s") eqn:E; simpl.
  - now apply endswith_spec.
  - now exists (Str.lower (table_name tbl)).
Qed.

(** ** [primary_key] *)

(** C9: [primary_key()] is the name of the first primary-key column; with
    no primary-key column it raises [IndexError], and with at least one it
    returns. *)
Theorem primary_key_spec (tbl : Table) :
  (forall c, head (primary_key_columns tbl) = Some c ->
     primary_key tbl = Ok (column_name c)) /\
  (primary_key_columns tbl = [] -> primary_key tbl = Raise IndexError) /\
  (primary_key_columns tbl <> [] ->
     primary_key tbl <> Raise IndexError /\ exists name, primary_key tbl = Ok name).
Proof.
  unfold primary_key. destruct (primary_key_columns tbl) as [|c rest]; simpl.
  - repeat split; [discriminate | congruence | congruence].
  - repeat split; try discriminate.
    + intros c' [= ->]. reflexivity.
    + eauto.
Qed.

Lemma primary_key_spec_witness :
  primary_key book = Ok "id" /\
  primary_key address = Raise IndexError /\
  primary_key book <> Raise IndexError.
Proof.
  split; [|split].
  - apply (proj1 (primary_key_spec book) (mkColumn "id" "book")). reflexivity.
  - apply (proj1 (proj2 (primary_key_spec address))). reflexivity.
  - apply (proj2 (proj2 (primary_key_spec book))). discriminate.
Defined.

(** ** Method calls on [self] *)

Lemma method_unshadowed {A : Type} (self : gmap string value) (name : string)
    (call : result A) :
  self !! name = None -> method self name call = call.
Proof. intros H. unfold method. now rewrite H. Qed.


Lemma method_Ok {A : Type} (self : gmap string value) (name : string)
    (call : result A) (a : A) :
  method self name call = Ok a -> self !! name = None /\ call = Ok a.
Proof. unfold method. destruct (self !! name); [discriminate | auto]. Qed.

Lemma unshadowed_lookup (self : gmap string value) (names : list string) (name : string) :
  unshadowed self names -> name ∈ names -> self !! name = None.
Proof. intros H Hin. unfold unshadowed in H. rewrite Forall_forall in H. auto. Qed.

(** ** [resource_uri] *)

(** C3: on an instance with no attribute named [primary_key] or
    [endpoint], and with primary key [pk], [resource_uri()] is
    ["/" + endpoint() + "/" + str(v)] for the value [v] of attribute [pk];
    the segment is "None" when the attribute is unset (and [pk] is no name
    of the class). *)
Theorem resource_uri_spec (tbl : Table) (self : gmap string value) (pk : string) :
  primary_key tbl = Ok pk ->
  unshadowed self ["primary_key"; "endpoint"] ->
  (forall v, self !! pk = Some v ->
     resource_uri tbl self = Ok ("/" +:+ endpoint tbl +:+ "/" +:+ str v)) /\
  (self !! pk = None -> class_level pk = false ->
     resource_uri tbl self = Ok ("/" +:+ endpoint tbl +:+ "/" +:+ "None")).
Proof.
  intros Hpk Hself.
  assert (Hp : self !! "primary_key" = None)
    by (apply (unshadowed_lookup _ _ _ Hself); left).
  assert (He : self !! "endpoint" = None)
    by (apply (unshadowed_lookup _ _ _ Hself); right; left).
  unfold resource_uri, getattr.
  rewrite (method_unshadowed _ _ _ Hp), (method_unshadowed _ _ _ He), Hpk. simpl.
  split; [intros v Hv | intros Hv _]; rewrite Hv; reflexivity.
Qed.

Lemma resource_uri_spec_witness :
  resource_uri book dune = Ok "/books/5" /\
  resource_uri book ∅ = Ok "/books/None".
Proof.
  split.
  - apply (proj1 (resource_uri_spec book dune "id" eq_refl ltac:(repeat constructor))
             (VInt 5)).
    reflexivity.
  - apply (proj2 (resource_uri_spec book ∅ "id" eq_refl ltac:(repeat constructor)));
      reflexivity.
Defined.

(** Unless a method is hidden, [resource_uri] raises exactly when
    [primary_key] does. *)
Lemma resource_uri_raises (tbl : Table) (self : gmap string value) (e : exn) :
  unshadowed self ["primary_key"; "endpoint"] ->
  (resource_uri tbl self = Raise e <-> primary_key tbl = Raise e).
Proof.
  intros Hself.
  assert (Hp : self !! "primary_key" = None)
    by (apply (unshadowed_lookup _ _ _ Hself); left).
  assert (He : self !! "endpoint" = None)
    by (apply (unshadowed_lookup _ _ _ Hself); right; left).
  unfold resource_uri.
  rewrite (method_unshadowed _ _ _ Hp), (method_unshadowed _ _ _ He).
  destruct (primary_key tbl); simpl; split; congruence.
Qed.

(** ** [links] *)

Lemma links_loop (self : gmap string value) (fks : list ForeignKey) (acc : list Link) :
  foldl (links_step self) acc fks = acc ++ omap (related_link self) fks.
Proof.
  revert acc. induction fks as [|fk fks IH]; intros acc; simpl.
  - now rewrite app_nil_r.
  - rewrite IH. unfold links_step, related_link.
    destruct (truthy (getattr self (column_name (fk_column fk)) VNone)); simpl.
    + now rewrite <- app_assoc.
    + reflexivity.
Qed.






(** C1: on the book example the related link is built from the
    attribute named like the referenced column ([id], 5), not from the
    foreign key's own column ([author_id], 3). *)
Theorem links_book_dune :
  map column_name (map fk_parent (foreign_keys book)) = ["author_id"] /\
  getattr dune "author_id" VNone = VInt 3 /\
  links book dune
  = Ok [ {| rel := "related"; uri := "/author/5" |};
         {| rel := "self"; uri := "/books/5" |} ].
Proof. repeat split. Qed.

(** ** [from_dict] and [replace] *)

Lemma absent_or_falsy_get (d : gmap string value) (c : string) :
  absent_or_falsy d c <-> truthy (dict_get d c VNone) = false.
Proof.
  unfold absent_or_falsy, dict_get. destruct (d !! c) as [v|]; simpl.
  - split; [intros [H | (v' & [= <-] & H)]; [discriminate | exact H] | eauto].
  - split; [reflexivity | now left].
Qed.

Section from_dict_loop.

Variable d : gmap string value.

Lemma from_dict_step_other (self : gmap string value) (c k : string) :
  k <> c -> from_dict_step d self c !! k = self !! k.
Proof.
  intros Hne. unfold from_dict_step, setattr.
  destruct (truthy (dict_get d c VNone)); [|reflexivity].
  now rewrite lookup_insert_ne by congruence.
Qed.

Lemma from_dict_step_falsy (self : gmap string value) (c : string) :
  truthy (dict_get d c VNone) = false -> from_dict_step d self c = self.
Proof. intros H. unfold from_dict_step. now rewrite H. Qed.

Lemma from_dict_step_truthy (self : gmap string value) (c : string) :
  truthy (dict_get d c VNone) = true ->
  from_dict_step d self c !! c = Some (dict_get d c VNone).
Proof.
  intros H. unfold from_dict_step, setattr. rewrite H. apply lookup_insert_eq.
Qed.

(** A name the loop does not visit, or visits with a falsy value, keeps
    its attribute. *)
Lemma from_dict_loop_keep (cols : list string) (self : gmap string value) (k : string) :
  k ∉ cols \/ truthy (dict_get d k VNone) = false ->
  foldl (from_dict_step d) self cols !! k = self !! k.
Proof.
  revert self. induction cols as [|c cols IH]; intros self Hk; simpl; [reflexivity|].
  rewrite IH.
  - destruct (decide (k = c)) as [->|Hne].
    + destruct Hk as [Hk | Hk].
      * exfalso. apply Hk. left.
      * now rewrite from_dict_step_falsy.
    + now apply from_dict_step_other.
  - destruct Hk as [Hk | Hk]; [left | now right].
    intros Hin. apply Hk. now right.
Qed.

(** A visited name with a truthy value ends up holding that value. *)
Lemma from_dict_loop_set (cols : list string) (self : gmap string value) (k : string) :
  k ∈ cols -> truthy (dict_get d k VNone) = true ->
  foldl (from_dict_step d) self cols !! k = Some (dict_get d k VNone).
Proof.
  revert self. induction cols as [|c cols IH]; intros self Hin Ht; simpl.
  - now apply elem_of_nil in Hin.
  - destruct (decide (k ∈ cols)) as [Hk | Hk]; [now apply IH|].
    apply elem_of_cons in Hin as [-> | Hin]; [|contradiction].
    rewrite from_dict_loop_keep by now left.
    now apply from_dict_step_truthy.
Qed.

End from_dict_loop.

(** The loop only consults the dictionary at the names it visits. *)
Lemma from_dict_loop_ext (d d' : gmap string value) (cols : list string)
    (self : gmap string value) :
  (forall c, c ∈ cols -> d !! c = d' !! c) ->
  foldl (from_dict_step d) self cols = foldl (from_dict_step d') self cols.
Proof.
  revert self. induction cols as [|c cols IH]; intros self Hd; simpl; [reflexivity|].
  rewrite IH by (intros c' Hc'; apply Hd; now right).
  unfold from_dict_step, dict_get. rewrite (Hd c) by left. reflexivity.
Qed.

(** The first loop of [replace] nulls exactly the declared columns. *)
Lemma replace_reset_lookup (cols : list string) (self : gmap string value) (k : string) :
  foldl (fun self column => setattr self column VNone) self cols !! k
  = if decide (k ∈ cols) then Some VNone else self !! k.
Proof.
  revert self. induction cols as [|c cols IH]; intros self; simpl.
  - destruct (decide (k ∈ [])) as [H|_]; [now apply elem_of_nil in H | reflexivity].
  - rewrite IH. unfold setattr.
    destruct (decide (k ∈ cols)) as [Hk|Hk].
    + rewrite decide_True by now right. reflexivity.
    + destruct (decide (k = c)) as [->|Hne].
      * rewrite decide_True by left. apply lookup_insert_eq.
      * rewrite decide_False by (intros [?|?]%elem_of_cons; contradiction).
        now rewrite lookup_insert_ne by congruence.
Qed.

(** C6: if the keys of [d] are exactly the non-foreign columns and all its
    values are truthy, then after [from_dict(d)] on a fresh instance every
    such attribute holds the value of [d]; the instance holds nothing else. *)
Theorem from_dict_round_trip (tbl : Table) (d : gmap string value) :
  dom d = list_to_set (non_foreign_keys tbl) ->
  map_Forall (fun _ v => truthy v = true) d ->
  (forall k v, d !! k = Some v -> getattr (from_dict tbl d ∅) k VNone = v) /\
  from_dict tbl d ∅ = d.
Proof.
  intros Hdom Htruthy.
  assert (Hlookup : forall k, from_dict tbl d ∅ !! k = d !! k).
  { intros k. unfold from_dict. destruct (d !! k) as [v|] eqn:Hk.
    - assert (Hget : dict_get d k VNone = v) by (unfold dict_get; now rewrite Hk).
      rewrite from_dict_loop_set; rewrite ?Hget.
      + reflexivity.
      + assert (Hin : k ∈ dom d) by (apply elem_of_dom; eauto).
        rewrite Hdom in Hin. apply elem_of_list_to_set in Hin.
        unfold non_foreign_keys in Hin. now apply list_elem_of_filter in Hin as [_ Hin].
      + exact (Htruthy k v Hk).
    - rewrite from_dict_loop_keep; [apply lookup_empty|].
      right. unfold dict_get. now rewrite Hk. }
  split.
  - intros k v Hk. unfold getattr. now rewrite Hlookup, Hk.
  - apply map_eq. exact Hlookup.
Qed.

Lemma from_dict_round_trip_witness :
  (forall k v, dune_fields !! k = Some v -> getattr (from_dict book dune_fields ∅) k VNone = v) /\
  from_dict book dune_fields ∅ = dune_fields.
Proof.
  apply (from_dict_round_trip book dune_fields).
  - vm_compute. reflexivity.
  - unfold dune_fields. apply map_Forall_insert_2; [reflexivity|].
    apply map_Forall_insert_2; [reflexivity|]. apply map_Forall_empty.
Defined.

(** C8: a declared column whose key is absent from [d], or falsy in [d],
    keeps the attribute it had before [from_dict(d)]; an attribute that
    was unset stays unset. *)
Theorem from_dict_frame (tbl : Table) (d self : gmap string value) (c : string) :
  c ∈ keys (columns tbl) ->
  absent_or_falsy d c ->
  from_dict tbl d self !! c = self !! c.
Proof.
  intros _ Hc. unfold from_dict. apply from_dict_loop_keep.
  right. now apply absent_or_falsy_get.
Qed.

Lemma from_dict_frame_witness :
  from_dict book zero_title dune !! "title" = Some (VStr "Dune") /\
  from_dict book zero_title dune !! "author_id" = Some (VInt 3).
Proof.
  split.
  - apply (from_dict_frame book zero_title dune "title").
    + right. left.
    + right. exists (VStr ""). split; reflexivity.
  - apply (from_dict_frame book zero_title dune "author_id").
    + right. right. left.
    + left. reflexivity.
Defined.

(** Whether [self.from_dict] finds an attribute after the first loop of
    [replace]. *)
Lemma replace_reset_from_dict (tbl : Table) (self : gmap string value) :
  (foldl (fun self column => setattr self column VNone) self (keys (columns tbl)))
    !! "from_dict" = None
  <-> ("from_dict" ∉ keys (columns tbl)) /\ self !! "from_dict" = None.
Proof.
  rewrite replace_reset_lookup.
  destruct (decide ("from_dict" ∈ keys (columns tbl))) as [Hin|Hin].
  - split; [discriminate | intros [? _]; contradiction].
  - split; [now split | now intros [_ ?]].
Qed.



(** C10: [from_dict(d)] changes no attribute outside the declared columns,
    so any attribute it changes is a declared column; keys of [d] that are
    not declared columns play no part, the result is that of [from_dict]
    on [d] without them.  ([from_dict] is total: it has no raising case.) *)
Theorem from_dict_only_columns (tbl : Table) (d self : gmap string value) :
  (forall name, name ∉ keys (columns tbl) -> from_dict tbl d self !! name = self !! name) /\
  (forall name, from_dict tbl d self !! name <> self !! name -> name ∈ keys (columns tbl)) /\
  from_dict tbl d self
  = from_dict tbl (filter (fun kv => kv.1 ∈ keys (columns tbl)) d) self.
Proof.
  assert (Hout : forall name, name ∉ keys (columns tbl) ->
                   from_dict tbl d self !! name = self !! name).
  { intros name Hname. unfold from_dict. apply from_dict_loop_keep. now left. }
  split; [exact Hout | split].
  - intros name Hne. destruct (decide (name ∈ keys (columns tbl))) as [H|H]; [exact H|].
    exfalso. apply Hne. now apply Hout.
  - unfold from_dict. apply from_dict_loop_ext. intros c Hc.
    symmetry. destruct (d !! c) as [v|] eqn:Hd.
    + apply map_lookup_filter_Some. split; [exact Hd | exact Hc].
    + apply map_lookup_filter_None. left. exact Hd.
Qed.

Lemma from_dict_only_columns_witness :
  from_dict book (<["isbn" := VStr "0441013597"]> dune_fields) ∅ !! "isbn"
  = (∅ : gmap string value) !! "isbn".
Proof.
  apply (proj1 (from_dict_only_columns book (<["isbn" := VStr "0441013597"]> dune_fields) ∅)).
  intros H. vm_compute in H.
  repeat (apply elem_of_cons in H as [H|H]; [discriminate H|]).
  now apply elem_of_nil in H.
Defined.

(** ** [as_dict] *)

(** The dictionary comprehension of [as_dict] has one entry per declared
    column and nothing else. *)
Lemma as_dict_comprehension (self : gmap string value) (cols : list string)
    (acc : gmap string object) (k : string) :
  foldl (fun d column => <[column := Scalar (getattr self column VNone)]> d) acc cols !! k
  = if decide (k ∈ cols) then Some (Scalar (getattr self k VNone)) else acc !! k.
Proof.
  revert acc. induction cols as [|c cols IH]; intros acc; simpl.
  - destruct (decide (k ∈ [])) as [H|_]; [now apply elem_of_nil in H | reflexivity].
  - rewrite IH. destruct (decide (k ∈ cols)) as [Hk|Hk].
    + rewrite decide_True by now right. reflexivity.
    + destruct (decide (k = c)) as [->|Hne].
      * rewrite decide_True by left. apply lookup_insert_eq.
      * rewrite decide_False by (intros [?|?]%elem_of_cons; contradiction).
        now rewrite lookup_insert_ne by congruence.
Qed.

Lemma stringify_Decimal_not_Decimal (o : object) (x : PyDecimal) :
  stringify_Decimal o <> Scalar (VDecimal x).
Proof. destruct o as [[| | | |y]|l]; simpl; discriminate. Qed.

(** C5, the claim as stated fails: a declared column named [_links] whose
    attribute is unset does not hold the [None] placeholder in [as_dict()],
    the list of links is stored under that key. *)
Lemma as_dict_links_column_shadowed :
  ~ (forall (tbl : Table) (self : gmap string value) (d : gmap string object) (c : string),
       as_dict tbl self = Ok d ->
       c ∈ keys (columns tbl) ->
       self !! c = None ->
       d !! c = Some (Scalar VNone)).
Proof.
  intros H.
  specialize (H node ∅ _ "_links" eq_refl).
  assert (Hin : "_links" ∈ keys (columns node)) by (right; left).
  specialize (H Hin (lookup_empty _)).
  vm_compute in H. discriminate H.
Qed.

(** C5, amended: when [links()] returns [l] and the instance has no
    attribute named [links], [as_dict()] returns a dictionary whose keys
    are the declared columns and [_links]; [_links] holds [l]; every
    declared column other than [_links] holds the attribute's value, [None]
    when it is unset (and the column is no name of the class) and the
    string form when it is a [Decimal]; no entry is a [Decimal]. *)
Theorem as_dict_spec (tbl : Table) (self : gmap string value) (l : list Link) :
  links tbl self = Ok l ->
  unshadowed self ["links"] ->
  exists d,
    as_dict tbl self = Ok d /\
    dom d = list_to_set (keys (columns tbl)) ∪ {["_links"]} /\
    d !! "_links" = Some (LinkList l) /\
    (forall c, c ∈ keys (columns tbl) -> c <> "_links" ->
       (self !! c = None -> class_level c = false -> d !! c = Some (Scalar VNone)) /\
       (forall x, self !! c = Some (VDecimal x) ->
          d !! c = Some (Scalar (VStr (Decimal_str x)))) /\
       (forall v, self !! c = Some v -> is_Decimal v = false ->
          d !! c = Some (Scalar v))) /\
    (forall c x, d !! c <> Some (Scalar (VDecimal x))).
Proof.
  intros Hl Hself. unfold as_dict.
  rewrite (method_unshadowed self "links" _
             (unshadowed_lookup _ _ _ Hself ltac:(left))), Hl.
  simpl.
  eexists. split; [reflexivity|].
  set (base := foldl _ ∅ (keys (columns tbl))).
  assert (Hbase : forall k, base !! k
            = if decide (k ∈ keys (columns tbl))
              then Some (Scalar (getattr self k VNone)) else None).
  { intros k. unfold base. rewrite as_dict_comprehension.
    destruct (decide (k ∈ keys (columns tbl))); [reflexivity | apply lookup_empty]. }
  split; [|split; [|split]].
  - apply set_eq. intros k.
    rewrite dom_insert_L, dom_fmap_L, !elem_of_union, elem_of_singleton.
    rewrite elem_of_list_to_set, elem_of_dom, Hbase.
    destruct (decide (k ∈ keys (columns tbl))) as [Hk|Hk].
    + split; intros _; [now left | right; eauto].
    + split; intros [H|H]; auto.
      * now destruct H.
      * contradiction.
  - apply lookup_insert_eq.
  - intros c Hin Hne. rewrite lookup_insert_ne by congruence.
    rewrite lookup_fmap, Hbase, decide_True by assumption.
    unfold getattr. split; [|split].
    + intros Hc _. rewrite Hc. reflexivity.
    + intros x Hc. rewrite Hc. reflexivity.
    + intros v Hc Hv. rewrite Hc. simpl. now rewrite Hv.
  - intros c x. destruct (decide (c = "_links")) as [->|Hne].
    + rewrite lookup_insert_eq. discriminate.
    + rewrite lookup_insert_ne by congruence. rewrite lookup_fmap.
      destruct (base !! c) as [o|]; simpl; [|discriminate].
      intros [= Ho]. now apply stringify_Decimal_not_Decimal in Ho.
Qed.

Lemma as_dict_spec_witness :
  exists d,
    as_dict product widget = Ok d /\
    dom d = list_to_set (keys (columns product)) ∪ {["_links"]} /\
    d !! "_links" = Some (LinkList [ {| rel := "self"; uri := "/products/7" |} ]) /\
    (forall c, c ∈ keys (columns product) -> c <> "_links" ->
       (widget !! c = None -> class_level c = false -> d !! c = Some (Scalar VNone)) /\
       (forall x, widget !! c = Some (VDecimal x) ->
          d !! c = Some (Scalar (VStr (Decimal_str x)))) /\
       (forall v, widget !! c = Some v -> is_Decimal v = false ->
          d !! c = Some (Scalar v))) /\
    (forall c x, d !! c <> Some (Scalar (VDecimal x))).
Proof.
  apply (as_dict_spec product widget [ {| rel := "self"; uri := "/products/7" |} ]);
    [reflexivity | repeat constructor].
Defined.

(** The row [widget]: the price is written "12.50", the missing name is
    [None]. *)
Example as_dict_widget :
  exists d,
    as_dict product widget = Ok d /\
    d !! "id" = Some (Scalar (VInt 7)) /\
    d !! "price" = Some (Scalar (VStr "12.50")) /\
    d !! "name" = Some (Scalar VNone) /\
    d !! "_links" = Some (LinkList [ {| rel := "self"; uri := "/products/7" |} ]).
Proof. eexists. repeat split. Qed.

(** * Further properties of the methods *)

(** ** Lower-casing and [endpoint] *)

Lemma lower_ascii_idem (c : ascii) :
  Str.lower_ascii (Str.lower_ascii c) = Str.lower_ascii c.
Proof.
  unfold Str.lower_ascii.
  destruct ((65 <=? nat_of_ascii c)%nat && (nat_of_ascii c <=? 90)%nat) eqn:E.
  - apply andb_true_iff in E as [H1 H2].
    apply Nat.leb_le in H1. apply Nat.leb_le in H2.
    rewrite nat_ascii_embedding by lia.
    replace (nat_of_ascii c + 32 <=? 90)%nat with false
      by (symmetry; apply Nat.leb_gt; lia).
    now rewrite andb_false_r.
  - now rewrite E.
Qed.

Lemma lower_idem (s : string) : Str.lower (Str.lower s) = Str.lower s.
Proof.
  induction s as [|c s IH]; simpl; [reflexivity|].
  now rewrite lower_ascii_idem, IH.
Qed.

Lemma lower_app (p q : string) : Str.lower (p +:+ q) = Str.lower p +:+ Str.lower q.
Proof. induction p as [|c p IH]; simpl; [reflexivity | now rewrite IH]. Qed.

(** X1: the endpoint is never empty, ends in "s" and is lower-case; for a
    table name in ASCII it is the table name's length or one longer. *)
Theorem endpoint_shape (tbl : Table) :
  endpoint tbl <> "" /\
  ends_in_s (endpoint tbl) /\
  lowercase (endpoint tbl) /\
  (is_ascii (table_name tbl) ->
   String.length (table_name tbl) <= String.length (endpoint tbl)
     <= S (String.length (table_name tbl))).
Proof.
  unfold endpoint, lowercase.
  destruct (Str.endswith (Str.lower (table_name tbl)) "s") eqn:E; simpl.
  - pose proof E as [p Hp]%endswith_spec.
    repeat split.
    + rewrite Hp. destruct p; discriminate.
    + now exists p.
    + apply lower_idem.
    + rewrite lower_length. lia.
    + rewrite lower_length. lia.
  - repeat split.
    + destruct (Str.lower (table_name tbl)); discriminate.
    + now exists (Str.lower (table_name tbl)).
    + rewrite lower_app, lower_idem. reflexivity.
    + rewrite length_app, lower_length. simpl. lia.
    + rewrite length_app, lower_length. simpl. lia.
Qed.

Lemma endpoint_shape_witness :
  String.length (table_name book) <= String.length (endpoint book)
    <= S (String.length (table_name book)).
Proof.
  apply (proj2 (proj2 (proj2 (endpoint_shape book)))).
  unfold is_ascii. simpl. repeat constructor.
Defined.

(** X2: pluralising is stable: a table named like the endpoint of another
    table has that same endpoint. *)
Theorem endpoint_idempotent (tbl tbl' : Table) :
  table_name tbl' = endpoint tbl ->
  endpoint tbl' = endpoint tbl.
Proof.
  intros Hname.
  assert (Hlow : Str.lower (endpoint tbl) = endpoint tbl).
  { unfold endpoint.
    destruct (Str.endswith (Str.lower (table_name tbl)) "s"); simpl.
    - apply lower_idem.
    - rewrite lower_app, lower_idem. reflexivity. }
  assert (Hs : Str.endswith (endpoint tbl) "s" = true).
  { apply endswith_spec. unfold endpoint.
    destruct (Str.endswith (Str.lower (table_name tbl)) "s") eqn:E; simpl.
    - now apply endswith_spec.
    - now exists (Str.lower (table_name tbl)). }
  unfold endpoint at 1. rewrite Hname, Hlow, Hs. reflexivity.
Qed.

Lemma endpoint_idempotent_witness : endpoint books = endpoint book.
Proof. apply (endpoint_idempotent book books). reflexivity. Defined.

(** ** Errors *)



(** ** [resource_uri] *)

(** [str] of an [int] can be read back, so it is injective. *)
Lemma of_Z_inj (z1 z2 : Z) : Str.of_Z z1 = Str.of_Z z2 -> z1 = z2.
Proof.
  unfold Str.of_Z. intros H.
  assert (Hread : forall z, NilZero.int_of_string (NilZero.string_of_int (Z.to_int z))
                            = Some (Z.to_int z)).
  { intros z. apply NilZero.isi; destruct z as [|p|p]; simpl; try discriminate.
    - intros [= Hp]. now apply DecimalPos.Unsigned.to_uint_nonnil in Hp.
    - intros [= Hp]. now apply DecimalPos.Unsigned.to_uint_nonnil in Hp. }
  apply DecimalZ.to_int_inj.
  pose proof (Hread z1) as H1. rewrite H, Hread in H1. congruence.
Qed.

(** X4: two rows of one table, neither with an attribute named
    [primary_key] or [endpoint], whose primary-key attributes are different
    integers: [resource_uri] returns for both, with different URIs. *)
Theorem resource_uri_int_injective (tbl : Table) (self1 self2 : gmap string value)
    (pk : string) (z1 z2 : Z) :
  primary_key tbl = Ok pk ->
  unshadowed self1 ["primary_key"; "endpoint"] ->
  unshadowed self2 ["primary_key"; "endpoint"] ->
  self1 !! pk = Some (VInt z1) ->
  self2 !! pk = Some (VInt z2) ->
  z1 <> z2 ->
  exists u1 u2,
    resource_uri tbl self1 = Ok u1 /\ resource_uri tbl self2 = Ok u2 /\ u1 <> u2.
Proof.
  intros Hpk Hs1 Hs2 H1 H2 Hne. unfold resource_uri.
  rewrite !method_unshadowed
    by first [ apply (unshadowed_lookup _ _ _ Hs1); repeat first [left | right]
             | apply (unshadowed_lookup _ _ _ Hs2); repeat first [left | right] ].
  rewrite Hpk. simpl.
  unfold getattr, format_uri. rewrite H1, H2. simpl.
  do 2 eexists. split; [reflexivity | split; [reflexivity|]].
  intros [= H]. apply Hne, of_Z_inj.
  apply (inj (String.app (endpoint tbl))) in H.
  now injection H.
Qed.

Lemma resource_uri_int_injective_witness :
  exists u1 u2,
    resource_uri book dune = Ok u1 /\
    resource_uri book (<["id" := VInt 6]> dune) = Ok u2 /\ u1 <> u2.
Proof.
  apply (resource_uri_int_injective book dune (<["id" := VInt 6]> dune) "id" 5 6);
    [reflexivity | repeat constructor | repeat constructor
     | reflexivity | reflexivity | discriminate].
Defined.

(** ** [links] *)

Lemma links_inv (tbl : Table) (self : gmap string value) (l : list Link) :
  links tbl self = Ok l ->
  exists u, resource_uri tbl self = Ok u /\
    l = omap (related_link self) (foreign_keys tbl) ++ [ {| rel := "self"; uri := u |} ].
Proof.
  intros Hl. unfold links in Hl.
  destruct (method self "resource_uri" (resource_uri tbl self)) as [u|e] eqn:Hm;
    [|discriminate Hl].
  apply method_Ok in Hm as [Hself Hu].
  exists u. split; [exact Hu|].
  simpl in Hl. injection Hl as <-. now rewrite links_loop.
Qed.

Lemma related_link_is_Some (self : gmap string value) (fk : ForeignKey) :
  is_Some (related_link self fk)
  <-> truthy (getattr self (column_name (fk_column fk)) VNone) = true.
Proof.
  unfold related_link.
  destruct (truthy (getattr self (column_name (fk_column fk)) VNone)).
  - split; eauto.
  - split; [intros [x Hx]; discriminate | discriminate].
Qed.

Lemma related_links_length (self : gmap string value) (fks : list ForeignKey) :
  length (omap (related_link self) fks)
  = length (filter (fun fk => truthy (getattr self (column_name (fk_column fk)) VNone)
                              = true) fks).
Proof.
  induction fks as [|fk fks IH]; simpl; [reflexivity|].
  destruct (truthy (getattr self (column_name (fk_column fk)) VNone)) eqn:E.
  - rewrite filter_cons_True by exact E.
    unfold related_link at 1. rewrite E. simpl. f_equal. exact IH.
  - rewrite filter_cons_False by (rewrite E; discriminate).
    unfold related_link at 1. rewrite E. exact IH.
Qed.

(** X5: the related links come in the iteration order of the foreign
    keys, one for each key whose attribute (read under the name of the
    referenced column) is truthy, its uri being "/", the referenced table's
    name as it is, "/" and the value; the self link is last. *)
Theorem links_in_key_order (tbl : Table) (self : gmap string value) (l : list Link) :
  links tbl self = Ok l ->
  exists u, resource_uri tbl self = Ok u /\
    l = omap (fun fk =>
                let v := getattr self (column_name (fk_column fk)) VNone in
                if truthy v
                then Some (mkLink "related"
                             ("/" +:+ column_table (fk_column fk) +:+ "/" +:+ str v))
                else None) (foreign_keys tbl)
        ++ [ mkLink "self" u ].
Proof. exact (links_inv tbl self l). Qed.

Lemma links_in_key_order_witness :
  exists u, resource_uri track thunderstruck = Ok u /\
    [ mkLink "related" "/Album/4"; mkLink "self" "/tracks/15" ]
    = omap (fun fk =>
              let v := getattr thunderstruck (column_name (fk_column fk)) VNone in
              if truthy v
              then Some (mkLink "related"
                           ("/" +:+ column_table (fk_column fk) +:+ "/" +:+ str v))
              else None) (foreign_keys track)
      ++ [ mkLink "self" u ].
Proof. apply (links_in_key_order track thunderstruck). reflexivity. Defined.

(** X6: [links()] has one link more than there are foreign keys with a
    truthy attribute: at least one, at most one more than the table has
    foreign keys. *)
Theorem links_length (tbl : Table) (self : gmap string value) (l : list Link) :
  links tbl self = Ok l ->
  length l = S (length (linked_keys tbl self)) /\
  1 <= length l <= S (length (foreign_keys tbl)).
Proof.
  intros (u & _ & ->)%links_inv.
  rewrite List.length_app, related_links_length. simpl. unfold linked_keys.
  pose proof (length_filter
    (fun fk => truthy (getattr self (column_name (fk_column fk)) VNone) = true)
    (foreign_keys tbl)).
  lia.
Qed.

Lemma links_length_witness :
  length [ mkLink "related" "/Album/4"; mkLink "self" "/tracks/15" ]
  = S (length (linked_keys track thunderstruck)) /\
  1 <= length [ mkLink "related" "/Album/4"; mkLink "self" "/tracks/15" ]
    <= S (length (foreign_keys track)).
Proof. apply (links_length track thunderstruck). reflexivity. Defined.





(** ** [from_dict] and [replace], continued *)

(** What [from_dict] leaves under any name. *)
Lemma from_dict_lookup (tbl : Table) (d self : gmap string value) (k : string) :
  from_dict tbl d self !! k
  = if decide (k ∈ keys (columns tbl) /\ truthy (dict_get d k VNone) = true)
    then Some (dict_get d k VNone) else self !! k.
Proof.
  unfold from_dict. destruct (decide _) as [[Hin Ht] | Hno].
  - now apply from_dict_loop_set.
  - apply from_dict_loop_keep.
    destruct (decide (k ∈ keys (columns tbl))) as [Hin|Hin]; [right | now left].
    destruct (truthy (dict_get d k VNone)); [|reflexivity].
    exfalso. apply Hno. now split.
Qed.

Lemma from_dict_hidden_spec (tbl : Table) (self : gmap string value) :
  foldl (fun self column => setattr self column VNone) self (keys (columns tbl))
    !! "from_dict" = None
  <-> from_dict_hidden tbl self = false.
Proof.
  rewrite replace_reset_from_dict. unfold from_dict_hidden.
  rewrite orb_false_iff, !bool_decide_eq_false, <- eq_None_not_Some. reflexivity.
Qed.


(** What [replace] leaves under any name. *)
Lemma replace_lookup (tbl : Table) (d self : gmap string value) (k : string) :
  replace tbl d self !! k
  = if decide (k ∈ keys (columns tbl))
    then Some (if from_dict_hidden tbl self then VNone
               else if truthy (dict_get d k VNone) then dict_get d k VNone else VNone)
    else self !! k.
Proof.
  unfold replace.
  destruct (foldl _ self (keys (columns tbl)) !! "from_dict") as [v|] eqn:E.
  - assert (Hh : from_dict_hidden tbl self = true).
    { destruct (from_dict_hidden tbl self) eqn:Hh; [reflexivity|].
      apply from_dict_hidden_spec in Hh. congruence. }
    rewrite Hh, replace_reset_lookup. reflexivity.
  - apply from_dict_hidden_spec in E. rewrite E.
    rewrite from_dict_lookup, replace_reset_lookup.
    destruct (decide (k ∈ keys (columns tbl))) as [Hin|Hin].
    + destruct (truthy (dict_get d k VNone)) eqn:Et.
      * now rewrite decide_True by now split.
      * now rewrite decide_False by (intros [_ ?]; discriminate).
    + now rewrite decide_False by (intros [? _]; contradiction).
Qed.


(** X9: applying the same dictionary twice is the same as applying it
    once. *)
Theorem from_dict_idempotent (tbl : Table) (d self : gmap string value) :
  from_dict tbl d (from_dict tbl d self) = from_dict tbl d self.
Proof.
  apply map_eq. intros k. rewrite !from_dict_lookup.
  destruct (decide _); reflexivity.
Qed.

(** X10: [from_dict] never stores a falsy value: an attribute that differs
    after [from_dict(d)] is a declared column and now holds the truthy
    value [d] has for it.  In particular no column can be set to [0],
    [""], [False] or [None] this way. *)
Theorem from_dict_stores_truthy (tbl : Table) (d self : gmap string value) (k : string) :
  from_dict tbl d self !! k <> self !! k ->
  exists v, d !! k = Some v /\ truthy v = true /\
            k ∈ keys (columns tbl) /\ from_dict tbl d self !! k = Some v.
Proof.
  rewrite from_dict_lookup. destruct (decide _) as [[Hin Ht] | Hno]; [|congruence].
  intros _. unfold dict_get in *. destruct (d !! k) as [v|]; simpl in *.
  - exists v. auto.
  - discriminate Ht.
Qed.

Lemma from_dict_stores_truthy_witness :
  exists v, (<["title" := VStr "Emma"]> zero_title) !! "title" = Some v /\
            truthy v = true /\ "title" ∈ keys (columns book) /\
            from_dict book (<["title" := VStr "Emma"]> zero_title) dune !! "title" = Some v.
Proof.
  apply (from_dict_stores_truthy book (<["title" := VStr "Emma"]> zero_title) dune "title").
  vm_compute. discriminate.
Defined.


(** X12: a dictionary whose values are all falsy, the empty dictionary
    among them, changes nothing. *)
Theorem from_dict_falsy_identity (tbl : Table) (d self : gmap string value) :
  map_Forall (fun _ v => truthy v = false) d ->
  from_dict tbl d self = self.
Proof.
  intros Hd. apply map_eq. intros k. rewrite from_dict_lookup.
  rewrite decide_False; [reflexivity|].
  intros [_ Ht]. unfold dict_get in Ht. destruct (d !! k) as [v|] eqn:Hk; simpl in Ht.
  - rewrite (Hd k v Hk) in Ht. discriminate.
  - discriminate.
Qed.

Lemma from_dict_falsy_identity_witness :
  from_dict book zero_title dune = dune /\ from_dict book ∅ dune = dune.
Proof.
  split.
  - apply (from_dict_falsy_identity book zero_title dune). unfold zero_title.
    apply map_Forall_insert_2; [reflexivity|].
    apply map_Forall_insert_2; [reflexivity|]. apply map_Forall_empty.
  - apply (from_dict_falsy_identity book ∅ dune). apply map_Forall_empty.
Defined.




(** X15: [replace] changes no attribute outside the declared columns. *)
Theorem replace_frame (tbl : Table) (d self : gmap string value) (k : string) :
  k ∉ keys (columns tbl) ->
  replace tbl d self !! k = self !! k.
Proof. intros Hk. rewrite replace_lookup. now rewrite decide_False. Qed.

Lemma replace_frame_witness :
  replace book ∅ (<["isbn" := VStr "0441013597"]> dune) !! "isbn"
  = (<["isbn" := VStr "0441013597"]> dune) !! "isbn".
Proof.
  apply (replace_frame book ∅ (<["isbn" := VStr "0441013597"]> dune) "isbn").
  intros H. vm_compute in H.
  repeat (apply elem_of_cons in H as [H|H]; [discriminate H|]).
  now apply elem_of_nil in H.
Defined.




(** ** [as_dict] after an update *)









(** ** Hidden methods *)



(** ** [meta] *)

Section meta_loop.

Variable type_str : Column -> string.

Lemma meta_loop_dom (cols : list Column) (acc : gmap string string) :
  dom (foldl (fun info column => <[column_name column := Str.lower (type_str column)]> info)
             acc cols)
  = list_to_set (keys cols) ∪ dom acc.
Proof.
  revert acc. induction cols as [|c cols IH]; intros acc; simpl.
  - now rewrite (left_id_L ∅ (∪)).
  - rewrite IH, dom_insert_L, (assoc_L (∪)).
    now rewrite (comm_L (∪) (list_to_set (keys cols)) {[column_name c]}).
Qed.

(** Every entry is in [acc] already or was written for some column. *)
Lemma meta_loop_origin (cols : list Column) (acc : gmap string string) (k t : string) :
  foldl (fun info column => <[column_name column := Str.lower (type_str column)]> info)
        acc cols !! k = Some t ->
  acc !! k = Some t \/
  exists c, c ∈ cols /\ column_name c = k /\ t = Str.lower (type_str c).
Proof.
  revert acc. induction cols as [|c cols IH]; intros acc; simpl; [now left|].
  intros [Hacc | (c' & Hin & Hname & Ht)]%IH.
  - destruct (decide (column_name c = k)) as [Heq|Hne].
    + rewrite Heq, lookup_insert_eq in Hacc. injection Hacc as <-.
      right. exists c. split; [left | now split].
    + rewrite lookup_insert_ne in Hacc by exact Hne. now left.
  - right. exists c'. split; [now right | now split].
Qed.

Lemma meta_loop_skip (cols : list Column) (acc : gmap string string) (k : string) :
  k ∉ keys cols ->
  foldl (fun info column => <[column_name column := Str.lower (type_str column)]> info)
        acc cols !! k = acc !! k.
Proof.
  revert acc. induction cols as [|c cols IH]; intros acc Hk; simpl; [reflexivity|].
  apply not_elem_of_cons in Hk as [Hne Hk].
  rewrite IH by exact Hk. now rewrite lookup_insert_ne by congruence.
Qed.

Lemma meta_loop_distinct (cols : list Column) (acc : gmap string string) (c : Column) :
  NoDup (keys cols) -> c ∈ cols ->
  foldl (fun info column => <[column_name column := Str.lower (type_str column)]> info)
        acc cols !! column_name c = Some (Str.lower (type_str c)).
Proof.
  revert acc. induction cols as [|c0 cols IH]; intros acc Hnd Hin; simpl.
  - now apply elem_of_nil in Hin.
  - apply NoDup_cons in Hnd as [Hfresh Hnd].
    apply elem_of_cons in Hin as [-> | Hin].
    + rewrite meta_loop_skip by exact Hfresh. apply lookup_insert_eq.
    + now apply IH.
Qed.

End meta_loop.

(** X19: [meta()] has the class name as its only key; under it there is
    one entry per declared column name and nothing else, and every entry
    is the lower-cased type name of a declared column of that name. *)
Theorem meta_spec (type_str : Column -> string) (cls_name : string) (tbl : Table) :
  exists info,
    meta type_str cls_name tbl = {[ cls_name := info ]} /\
    dom info = list_to_set (keys (columns tbl)) /\
    (forall name t, info !! name = Some t ->
       lowercase t /\
       exists c, c ∈ columns tbl /\ column_name c = name /\ t = Str.lower (type_str c)).
Proof.
  eexists. split; [reflexivity | split].
  - now rewrite meta_loop_dom, dom_empty_L, (right_id_L ∅ (∪)).
  - intros name t [Hempty | (c & Hin & Hname & ->)]%meta_loop_origin.
    + now rewrite lookup_empty in Hempty.
    + split; [apply lower_idem | eauto].
Qed.

(** X20: when the column names are distinct, each declared column is
    listed in [meta()] with its own type name, lower-cased. *)
Theorem meta_distinct_columns (type_str : Column -> string) (cls_name : string)
    (tbl : Table) (c : Column) :
  NoDup (keys (columns tbl)) ->
  c ∈ columns tbl ->
  exists info,
    meta type_str cls_name tbl !! cls_name = Some info /\
    info !! column_name c = Some (Str.lower (type_str c)).
Proof.
  intros Hnd Hin. eexists. split.
  - unfold meta. apply lookup_singleton_eq.
  - now apply meta_loop_distinct.
Qed.

Lemma meta_distinct_columns_witness :
  exists info,
    meta track_types "Track" track !! "Track" = Some info /\
    info !! "Name" = Some "varchar(200)".
Proof.
  apply (meta_distinct_columns track_types "Track" track (mkColumn "Name" "Track")).
  - vm_compute. repeat constructor; intros H;
      repeat (apply elem_of_cons in H as [H|H]; [discriminate H|]);
      now apply elem_of_nil in H.
  - right. left.
Defined.
